(** * Construction Pro: the ledger store and the dashboard aggregator

    A shallow embedding of [main.py], a Streamlit page over three CSV files
    ([labor.csv], [expenses.csv], [site_diary.csv]) handled with pandas.

    - A DataFrame is kept the way pandas keeps it, as named columns of cells.
    - Amounts are rationals: the arithmetic of the page ([*], [+], [-], [>]) is
      exact here, the rounding of binary floating point is left out.
    - A CSV file is kept as its header names, each with the text fields below
      it.  How pandas prints a number, which fields it reads as a number and
      which as a missing value are parameters ([CsvText]); [pandas_text]
      fixes them for the ledgers of the examples.
    - A [datetime.date] stands as its ISO text. *)

From Stdlib Require Import List String Ascii Bool Arith ZArith QArith Lia.
From Stdlib Require Import Permutation Sorted DecimalString.
Import ListNotations.

Local Open Scope string_scope.
Local Open Scope list_scope.

(** ** Cells and Series *)

(** One cell of a DataFrame. *)
Inductive cell : Type :=
| Num (q : Q)       (* an int or a float *)
| Str (s : string)  (* a str *)
| NaN.              (* a missing value *)

(** [==] of pandas on the labels of a column: numbers by value, text exactly
    (case and blanks count), missing values alike. *)
Definition cell_eqb (a b : cell) : bool :=
  match a, b with
  | Num x, Num y => Qeq_bool x y
  | Str s, Str t => String.eqb s t
  | NaN, NaN => true
  | _, _ => false
  end.

(** The order in which pandas sorts group labels: numbers first, then text. *)
Definition cell_leb (a b : cell) : bool :=
  match a, b with
  | Num x, Num y => Qle_bool x y
  | Num _, _ => true
  | Str _, Num _ => false
  | Str s, Str t => String.leb s t
  | Str _, NaN => true
  | NaN, NaN => true
  | NaN, _ => false
  end.

Definition isna (c : cell) : bool :=
  match c with NaN => true | _ => false end.

(** Truth value of a Python object: [""] and [0] are false, [nan] is true. *)
Definition truthy (c : cell) : bool :=
  match c with
  | Num q => negb (Qeq_bool q 0)
  | Str s => negb (String.eqb s "")
  | NaN => true
  end.

(** [x > y] on numbers. *)
Definition Qgtb (x y : Q) : bool := negb (Qle_bool x y).

(** [Series.sum()] of a numeric column. *)
Definition sum (xs : list Q) : Q := fold_left Qplus xs 0%Q.

(** The numbers of a column, when every cell of it is one. *)
Fixpoint numbers (cs : list cell) : option (list Q) :=
  match cs with
  | [] => Some []
  | Num q :: rest => option_map (cons q) (numbers rest)
  | _ :: _ => None
  end.

(** Elementwise product of two Series of one frame. *)
Fixpoint series_mul (xs ys : list Q) : list Q :=
  match xs, ys with
  | x :: xs', y :: ys' => (x * y)%Q :: series_mul xs' ys'
  | _, _ => []
  end.

(** Insertion sort by a boolean order; equal elements keep their order. *)
Fixpoint insert_by {A} (leb : A -> A -> bool) (x : A) (l : list A) : list A :=
  match l with
  | [] => [x]
  | y :: l' => if leb x y then x :: l else y :: insert_by leb x l'
  end.

Fixpoint sort_by {A} (leb : A -> A -> bool) (l : list A) : list A :=
  match l with
  | [] => []
  | x :: l' => insert_by leb x (sort_by leb l')
  end.

(** [Series.unique()]: the labels in order of first appearance. *)
Fixpoint unique (ks : list cell) : list cell :=
  match ks with
  | [] => []
  | k :: rest => k :: filter (fun k' => negb (cell_eqb k' k)) (unique rest)
  end.

(** No two labels of the list are equal. *)
Definition distinct_labels (ks : list cell) : Prop :=
  ForallOrdPairs (fun a b => cell_eqb a b = false) ks.

(** ** DataFrames *)

Definition frame : Type := list (string * list cell).

Definition columns (df : frame) : list string := map fst df.

(** [df[name]]; [None] stands for the KeyError. *)
Fixpoint get_col (df : frame) (name : string) : option (list cell) :=
  match df with
  | [] => None
  | (n, cs) :: rest => if String.eqb n name then Some cs else get_col rest name
  end.

(** [name in df.columns] *)
Definition has_col (df : frame) (name : string) : bool :=
  existsb (String.eqb name) (columns df).

(** [df[name] = values]: in place when the column exists, a new last column
    otherwise. *)
Fixpoint set_col (df : frame) (name : string) (vals : list cell) : frame :=
  match df with
  | [] => [(name, vals)]
  | (n, cs) :: rest =>
      if String.eqb n name then (n, vals) :: rest
      else (n, cs) :: set_col rest name vals
  end.

(** [len(df)] *)
Definition nrows (df : frame) : nat :=
  match df with
  | [] => 0
  | (_, cs) :: _ => List.length cs
  end.

(** [df.empty] *)
Definition empty (df : frame) : bool := Nat.eqb (nrows df) 0.

(** [pd.DataFrame(columns=names)] *)
Definition new_frame (names : list string) : frame :=
  map (fun n => (n, [])) names.

(** A record as the page builds it: a dict from column name to value. *)
Definition record : Type := list (string * cell).

Fixpoint field (r : record) (name : string) : cell :=
  match r with
  | [] => NaN
  | (n, c) :: rest => if String.eqb n name then c else field rest name
  end.

(** [pd.DataFrame(records)] for dicts over the same keys: the keys of the
    first one name the columns; no record, no column. *)
Definition from_records (rs : list record) : frame :=
  match rs with
  | [] => []
  | r :: _ => map (fun kv => (fst kv, map (fun r' => field r' (fst kv)) rs)) r
  end.

(** [pd.concat([a, b], ignore_index=True)]: the rows of [b] below those of
    [a]; the columns of [a] come first, then those only [b] has; a cell a
    frame has nothing for is missing. *)
Definition concat (a b : frame) : frame :=
  map (fun col =>
         (fst col,
          snd col ++ match get_col b (fst col) with
                     | Some bs => bs
                     | None => repeat NaN (nrows b)
                     end)) a
  ++ map (fun col => (fst col, repeat NaN (nrows a) ++ snd col))
         (filter (fun col => negb (has_col a (fst col))) b).

(** The cell of row [i] in column [name]. *)
Definition cell_at (df : frame) (i : nat) (name : string) : option cell :=
  match get_col df name with
  | Some cs => nth_error cs i
  | None => None
  end.

(** Every column has [n] cells. *)
Definition rectangular (n : nat) (df : frame) : Prop :=
  Forall (fun col => List.length (snd col) = n) df.

(** ** Grouping *)

(** The values of the rows labelled [k]. *)
Fixpoint select (keys : list cell) (vals : list Q) (k : cell) : list Q :=
  match keys, vals with
  | k' :: keys', v :: vals' =>
      if cell_eqb k' k then v :: select keys' vals' k else select keys' vals' k
  | _, _ => []
  end.

(** The group labels of [groupby]: missing labels are dropped, the others
    taken once each and sorted. *)
Definition group_keys (keys : list cell) : list cell :=
  sort_by cell_leb (unique (filter (fun k => negb (isna k)) keys)).

(** [df.groupby(key)[value].sum()] *)
Definition groupby_sum (keys : list cell) (vals : list Q) : list (cell * Q) :=
  map (fun k => (k, sum (select keys vals k))) (group_keys keys).

(** [pending[["Balance_Due"]].sort_values("Balance_Due", ascending=False)]:
    largest balance first.  pandas leaves the order of equal balances open;
    here they keep the order they had. *)
Definition sort_values_desc (rows : list (cell * Q)) : list (cell * Q) :=
  sort_by (fun a b => Qle_bool (snd b) (snd a)) rows.

(** Lines 77 to 80 of the page: per worker the sums of [Earned] and of
    [Paid_Today], their difference as [Balance_Due], the balances above 10,
    largest first. *)
Definition worker_summary (worker : list cell) (earned paid : list Q)
  : list (cell * (Q * Q)) :=
  map (fun k => (k, (sum (select worker earned k), sum (select worker paid k))))
      (group_keys worker).

Definition balance_due (ws : list (cell * (Q * Q))) : list (cell * Q) :=
  map (fun r => (fst r, (fst (snd r) - snd (snd r))%Q)) ws.

Definition pending_dues (worker : list cell) (earned paid : list Q)
  : list (cell * Q) :=
  sort_values_desc
    (filter (fun r => Qgtb (snd r) 10)
            (balance_due (worker_summary worker earned paid))).

(** ** CSV files *)

(** What pandas does with the text of one field: how it prints a number,
    which fields it reads as a number, and which as a missing value. *)
Class CsvText : Type := {
  show_number : Q -> string;
  to_number : string -> option Q;
  is_na_text : string -> bool
}.

(** A file: the header names in order, each with the fields below it. *)
Definition csv : Type := list (string * list string).

(** The files of the working directory. *)
Definition fs : Type := string -> option csv.

Definition write (files : fs) (name : string) (c : csv) : fs :=
  fun n => if String.eqb n name then Some c else files n.

Definition no_files : fs := fun _ => None.

Section Store.

Context {T : CsvText}.

Definition cell_text (c : cell) : string :=
  match c with
  | Num q => show_number q
  | Str s => s
  | NaN => ""
  end.

(** [df.to_csv(index=False)] *)
Definition to_csv (df : frame) : csv :=
  map (fun col => (fst col, map cell_text (snd col))) df.

Definition reads_as_number (f : string) : bool :=
  match to_number f with Some _ => true | None => false end.

(** One column as [read_csv] types it: numbers when every field that is not
    a missing-value marker reads as one, text otherwise.  (A column of
    nothing but True and False, which pandas types as booleans, is text
    here.) *)
Definition read_column (fields : list string) : list cell :=
  if forallb (fun f => is_na_text f || reads_as_number f) fields
  then map (fun f => if is_na_text f then NaN
                     else match to_number f with
                          | Some q => Num q
                          | None => NaN
                          end) fields
  else map (fun f => if is_na_text f then NaN else Str f) fields.

(** [pd.read_csv(filename)] on a file whose header names differ. *)
Definition read_csv (file : csv) : frame :=
  map (fun col => (fst col, read_column (snd col))) file.

(** [pd.to_numeric(_, errors='coerce')] on one cell. *)
Definition to_numeric (c : cell) : cell :=
  match c with
  | Num q => Num q
  | Str s => match to_number s with
             | Some q => Num q
             | None => NaN
             end
  | NaN => NaN
  end.

(** [.fillna(0)] on one cell. *)
Definition fillna0 (c : cell) : cell :=
  match c with
  | NaN => Num 0
  | _ => c
  end.

Definition numeric_cols : list string :=
  ["Wage"; "Attendance"; "Paid_Today"; "Cost"; "Earned"].

(** The body of the loop of [load_data] for one name of [numeric_cols]. *)
Definition fix_numbers (df : frame) (col : string) : frame :=
  match get_col df col with
  | Some cs => set_col df col (map (fun c => fillna0 (to_numeric c)) cs)
  | None => df
  end.


(** [save_data(df, filename)] *)
Definition save_data (files : fs) (df : frame) (filename : string) : fs :=
  write files filename (to_csv df).

(** [load_data(filename, columns)]: the frame and the files afterwards. *)
Definition load_data (files : fs) (filename : string) (cols : list string)
  : frame * fs :=
  match files filename with
  | None =>
      let df := new_frame cols in
      (df, write files filename (to_csv df))
  | Some file =>
      (fold_left fix_numbers numeric_cols (read_csv file), files)
  end.

End Store.

(** ** The page *)

Definition LABOR_FILE : string := "labor.csv".
Definition EXPENSE_FILE : string := "expenses.csv".
Definition PROGRESS_FILE : string := "site_diary.csv".

Definition labor_columns : list string :=
  ["Date"; "Worker"; "Role"; "Wage"; "Attendance"; "Paid_Today"; "Notes"].
Definition expense_columns : list string :=
  ["Date"; "Item"; "Category"; "Cost"; "Paid_To"].
Definition progress_columns : list string :=
  ["Date"; "Work_Description"].

(** A numeric column of a frame: [None] when the frame has no such column
    (KeyError) or the column holds something other than numbers, which a
    frame that [load_data] returned never does in a column of
    [numeric_cols]. *)
Definition numeric_col (df : frame) (name : string) : option (list Q) :=
  match get_col df name with
  | Some cs => numbers cs
  | None => None
  end.

Declare Scope page_scope.
Notation "x <- e ;; k" :=
  (match e with Some x => k | None => None end)
    (at level 61, e at next level, right associativity) : page_scope.
Local Open Scope page_scope.

(** *** 1. Dashboard *)

Record dashboard_page : Type := {
  labor_with_earned : frame;       (* df_labor after line 49 *)
  total_labor_paid : Q;
  total_labor_earned : Q;
  labor_due : Q;
  total_material : Q;
  grand_total : Q;
  spending_data : list (cell * Q); (* the rows Category, Cost of the chart *)
  pending : option (list (cell * Q)) (* Worker, Balance_Due; absent when
                                        df_labor is empty *)
}.

(** [df_labor["Earned"] = df_labor["Wage"] * df_labor["Attendance"]] *)
Definition compute_earned (df_labor : frame) : option frame :=
  wage <- numeric_col df_labor "Wage" ;;
  att <- numeric_col df_labor "Attendance" ;;
  Some (set_col df_labor "Earned" (map Num (series_mul wage att))).

Definition LABOR_PAYMENTS : cell := Str "Labor Payments".

(** The chart of column 1: the grouped costs and one more row below them. *)
Definition spend_by_category (df_exp : frame) (total_labor_paid : Q)
  : option (list (cell * Q)) :=
  category <- get_col df_exp "Category" ;;
  cost <- numeric_col df_exp "Cost" ;;
  Some (groupby_sum category cost ++ [(LABOR_PAYMENTS, total_labor_paid)]).

(** The table of column 2, on the frame that has its [Earned] column. *)
Definition pending_dues_list (df_labor : frame) : option (list (cell * Q)) :=
  worker <- get_col df_labor "Worker" ;;
  earned <- numeric_col df_labor "Earned" ;;
  paid <- numeric_col df_labor "Paid_Today" ;;
  Some (pending_dues worker earned paid).

Definition dashboard (df_labor df_exp : frame) : option dashboard_page :=
  df_labor <- compute_earned df_labor ;;
  paid <- numeric_col df_labor "Paid_Today" ;;
  let total_labor_paid := sum paid in
  earned <- numeric_col df_labor "Earned" ;;
  let total_labor_earned := sum earned in
  let labor_due := (total_labor_earned - total_labor_paid)%Q in
  cost <- numeric_col df_exp "Cost" ;;
  let total_material := sum cost in
  let grand_total := (total_material + total_labor_paid)%Q in
  spending <- spend_by_category df_exp total_labor_paid ;;
  pending <- (if empty df_labor then Some None
              else option_map Some (pending_dues_list df_labor)) ;;
  Some {| labor_with_earned := df_labor;
          total_labor_paid := total_labor_paid;
          total_labor_earned := total_labor_earned;
          labor_due := labor_due;
          total_material := total_material;
          grand_total := grand_total;
          spending_data := spending;
          pending := pending |}.

(** *** 2. Bulk attendance *)

(** What the page tells the user. *)
Inductive message : Type :=
| NoWorkersFound       (* st.warning("No workers found. ...") *)
| Marked (n : nat)     (* st.success(f"Marked {n} workers!") *)
| NameRequired         (* st.error("Name is required!") *)
| Saved                (* st.success("Saved!") *)
| ExpenseSaved.        (* st.success("Expense Saved!") *)

(** The choices of the bulk form: [1.0, 0.5]. *)
Inductive bulk_attendance : Type := BulkFullDay | BulkHalfDay.

Definition bulk_attendance_value (a : bulk_attendance) : Q :=
  match a with
  | BulkFullDay => 1
  | BulkHalfDay => 1 # 2
  end.

Record bulk_form : Type := {
  bulk_date : string;
  bulk_selected : list cell;  (* some of the workers of the list *)
  bulk_wage : Q;
  bulk_att : bulk_attendance
}.

Definition bulk_row (f : bulk_form) (w : cell) : record :=
  [("Date", Str (bulk_date f)); ("Worker", w); ("Role", Str "Regular");
   ("Wage", Num (bulk_wage f));
   ("Attendance", Num (bulk_attendance_value (bulk_att f)));
   ("Paid_Today", Num 0); ("Notes", Str "Bulk")].

(** *** 3. Single entry *)

(** The choices of the single form: [1.0, 0.5, 0.0]. *)
Inductive attendance : Type := FullDay | HalfDay | Absent.

Definition attendance_value (a : attendance) : Q :=
  match a with
  | FullDay => 1
  | HalfDay => 1 # 2
  | Absent => 0
  end.

(** The radio "Mode" with the widget under it. *)
Inductive name_choice : Type :=
| ExistingWorker (i : nat)      (* the i-th name of the select box *)
| NewWorker (typed : string).   (* the text typed *)

Definition final_name (existing : list cell) (c : name_choice) : cell :=
  match c with
  | ExistingWorker i =>
      match existing with
      | [] => Str ""
      | first :: _ => nth i existing first
      end
  | NewWorker typed => Str typed
  end.

Record single_form : Type := {
  single_date : string;
  single_wage : Q;
  single_att : attendance;
  single_paid : Q
}.

Definition single_row (name : cell) (f : single_form) : record :=
  [("Date", Str (single_date f)); ("Worker", name); ("Role", Str "Labor");
   ("Wage", Num (single_wage f));
   ("Attendance", Num (attendance_value (single_att f)));
   ("Paid_Today", Num (single_paid f)); ("Notes", Str "Single")].

(** *** 4. Expenses *)

(** The choices of the category box. *)
Inductive category : Type := Material | Transport | Food | Other.

Definition category_name (c : category) : string :=
  match c with
  | Material => "Material"
  | Transport => "Transport"
  | Food => "Food"
  | Other => "Other"
  end.

Record expense_form : Type := {
  exp_date : string;
  exp_item : string;
  exp_cost : Q;
  exp_cat : category
}.

Definition expense_row (f : expense_form) : record :=
  [("Date", Str (exp_date f)); ("Item", Str (exp_item f));
   ("Category", Str (category_name (exp_cat f)));
   ("Cost", Num (exp_cost f)); ("Paid_To", Str "")].

(** [df.tail(n)] *)
Definition tail (n : nat) (df : frame) : frame :=
  map (fun col => (fst col, skipn (List.length (snd col) - n) (snd col))) df.

(** *** One run of the script *)

(** The menu entry, with the form of the view when it was submitted. *)
Inductive action : Type :=
| Dashboard
| BulkAttendance (submitted : option bulk_form)
| SingleEntry (who : name_choice) (submitted : option single_form)
| MaterialBills (submitted : option expense_form)
| Reports.

(** What a view shows. *)
Inductive shown : Type :=
| ShowDashboard (d : dashboard_page)
| ShowMessages (ms : list message)
| ShowExpenses (ms : list message) (last : frame)
| ShowReports (labor_frame expense_frame : frame)
              (labor_download expense_download : csv).

Section Page.

Context {T : CsvText}.

(** A view: the files it leaves and what it shows, [None] when it stops on
    an exception. *)
Definition bulk_attendance_view (files : fs) (df_labor : frame)
           (submitted : option bulk_form) : fs * option shown :=
  match get_col df_labor "Worker" with
  | None => (files, None)
  | Some worker =>
      let workers := unique worker in
      let warning := match workers with [] => [NoWorkersFound] | _ => [] end in
      match submitted with
      | None => (files, Some (ShowMessages warning))
      | Some f =>
          let new_rows := map (bulk_row f) (bulk_selected f) in
          let df_labor := concat df_labor (from_records new_rows) in
          (save_data files df_labor LABOR_FILE,
           Some (ShowMessages
                   (warning ++ [Marked (List.length (bulk_selected f))])))
      end
  end.

Definition single_entry_view (files : fs) (df_labor : frame)
           (who : name_choice) (submitted : option single_form)
  : fs * option shown :=
  match get_col df_labor "Worker" with
  | None => (files, None)
  | Some worker =>
      let existing := unique worker in
      let name := final_name existing who in
      match submitted with
      | None => (files, Some (ShowMessages []))
      | Some f =>
          if negb (truthy name) then
            (files, Some (ShowMessages [NameRequired]))
          else
            let new_row := from_records [single_row name f] in
            let df_labor := concat df_labor new_row in
            (save_data files df_labor LABOR_FILE,
             Some (ShowMessages [Saved]))
      end
  end.

Definition expenses_view (files : fs) (df_exp : frame)
           (submitted : option expense_form) : fs * option shown :=
  match submitted with
  | None => (files, Some (ShowExpenses [] (tail 5 df_exp)))
  | Some f =>
      let new_row := from_records [expense_row f] in
      let df_exp := concat df_exp new_row in
      (save_data files df_exp EXPENSE_FILE,
       Some (ShowExpenses [ExpenseSaved] (tail 5 df_exp)))
  end.

Definition reports_view (df_labor df_exp : frame) : shown :=
  ShowReports df_labor df_exp (to_csv df_labor) (to_csv df_exp).

(** The script from top to bottom: the three loads, then the view of the
    menu entry. *)
Definition run (files : fs) (a : action) : fs * option shown :=
  let '(df_labor, files) := load_data files LABOR_FILE labor_columns in
  let '(df_exp, files) := load_data files EXPENSE_FILE expense_columns in
  let '(df_prog, files) := load_data files PROGRESS_FILE progress_columns in
  match a with
  | Dashboard => (files, option_map ShowDashboard (dashboard df_labor df_exp))
  | BulkAttendance submitted => bulk_attendance_view files df_labor submitted
  | SingleEntry who submitted =>
      single_entry_view files df_labor who submitted
  | MaterialBills submitted => expenses_view files df_exp submitted
  | Reports => (files, Some (reports_view df_labor df_exp))
  end.

(** Runs one after the other. *)
Definition run_all (files : fs) (actions : list action) : fs :=
  fold_left (fun files a => fst (run files a)) actions files.

(** The files after the three loads of a run. *)
Definition loaded (files : fs) : fs :=
  snd (load_data
         (snd (load_data
                 (snd (load_data files LABOR_FILE labor_columns))
                 EXPENSE_FILE expense_columns))
         PROGRESS_FILE progress_columns).

End Page.

(** ** Predicates on files and tables *)




Section Survival.

Context {T : CsvText}.







End Survival.

(** ** Predicates on runs *)








(** ** The text of pandas, for the ledgers of the examples *)

(** The markers [read_csv] takes for a missing value by default. *)
Definition na_values : list string :=
  [""; "#N/A"; "#N/A N/A"; "#NA"; "-1.#IND"; "-1.#QNAN"; "-NaN"; "-nan";
   "1.#IND"; "1.#QNAN"; "<NA>"; "N/A"; "NA"; "NULL"; "NaN"; "None"; "n/a";
   "nan"; "null"].

Definition is_na_value (f : string) : bool :=
  existsb (String.eqb f) na_values.

(** The digits of a fraction [r / d] below one, at most [fuel] of them. *)
Fixpoint fraction_digits (fuel : nat) (r d : Z) : string :=
  match fuel with
  | O => ""
  | S fuel' =>
      if (r =? 0)%Z then ""
      else NilZero.string_of_uint (N.to_uint (Z.to_N (r * 10 / d)))
           ++ fraction_digits fuel' ((r * 10) mod d) d
  end.

(** A number the way Python prints a float: [600.0], [0.5], [-3.25]. *)
Definition show_decimal (q : Q) : string :=
  let n := Z.abs (Qnum q) in
  let d := Zpos (Qden q) in
  let frac := fraction_digits 17 (n mod d) d in
  (if (Qnum q <? 0)%Z then "-" else "")
  ++ NilZero.string_of_uint (N.to_uint (Z.to_N (n / d))) ++ "."
  ++ (if String.eqb frac "" then "0" else frac).

(** The text before the first dot, and the text after it when there is one. *)
Fixpoint split_dot (s : string) : string * option string :=
  match s with
  | EmptyString => (EmptyString, None)
  | String c rest =>
      if Ascii.eqb c "." then (EmptyString, Some rest)
      else let '(a, b) := split_dot rest in (String c a, b)
  end.

Definition unsigned_decimal (s : string) : option Q :=
  let '(ip, fp) := split_dot s in
  let fp := match fp with Some f => f | None => EmptyString end in
  if String.eqb ip "" then None
  else
    match NilEmpty.uint_of_string ip, NilEmpty.uint_of_string fp with
    | Some i, Some f =>
        let scale := (10 ^ Z.of_nat (String.length fp))%Z in
        Some (Qred (Qmake (Z.of_uint i * scale + Z.of_uint f) (Z.to_pos scale)))
    | _, _ => None
    end.

(** Plain decimal numerals, with a sign or without: [600], [600.0], [-3.25].
    pandas reads more than these as numbers (exponents, [inf]); the ledgers
    of the examples hold none of them. *)
Definition parse_decimal (s : string) : option Q :=
  match s with
  | String c rest =>
      if Ascii.eqb c "-" then option_map Qopp (unsigned_decimal rest)
      else unsigned_decimal s
  | EmptyString => None
  end.

#[export] Instance pandas_text : CsvText := {|
  show_number := show_decimal;
  to_number := parse_decimal;
  is_na_text := is_na_value
|}.

(** ** The ledgers of the examples *)


(** A worker who was paid more than he earned. *)
Definition overpaid_ledger : frame :=
  [("Date", [Str "2024-01-01"]); ("Worker", [Str "Ram"]);
   ("Role", [Str "Labor"]); ("Wage", [Num 600]); ("Attendance", [Num 0.5]);
   ("Paid_Today", [Num 500]); ("Notes", [Str "Single"])].

(** A ledger with one day of A and one of B. *)
Definition two_workers : frame :=
  [("Date", [Str "2024-01-01"; Str "2024-01-01"]);
   ("Worker", [Str "A"; Str "B"]);
   ("Role", [Str "Labor"; Str "Labor"]);
   ("Wage", [Num 600; Num 600]);
   ("Attendance", [Num 1; Num 1]);
   ("Paid_Today", [Num 0; Num 100]);
   ("Notes", [Str "Single"; Str "Single"])].

(** The form of the scenario: A and B, 500 a day, half a day. *)
Definition half_day_form : bulk_form :=
  {| bulk_date := "2024-01-02";
     bulk_selected := [Str "A"; Str "B"];
     bulk_wage := 500;
     bulk_att := BulkHalfDay |}.

(** An expense ledger that spells one category in three ways. *)
Definition spelled_expenses : frame :=
  [("Date", [Str "2024-01-01"; Str "2024-01-02"; Str "2024-01-03";
             Str "2024-01-04"]);
   ("Item", [Str "Tea"; Str "Lunch"; Str "Snacks"; Str "Dinner"]);
   ("Category", [Str "Food"; Str "food"; Str " Food"; Str "Food"]);
   ("Cost", [Num 1; Num 2; Num 4; Num 8]);
   ("Paid_To", [NaN; NaN; NaN; NaN])].




(** A labor file with a wage that is no number and a payment left empty. *)
Definition corrupt_labor_file : csv :=
  [("Date", ["2024-01-01"; "2024-01-02"]);
   ("Worker", ["Ram"; "Sita"]);
   ("Role", ["Labor"; "Labor"]);
   ("Wage", ["600"; "six hundred"]);
   ("Attendance", ["1.0"; "0.5"]);
   ("Paid_Today", [""; "200.0"]);
   ("Notes", ["Single"; "Single"])].

Definition corrupt_store : fs := write no_files LABOR_FILE corrupt_labor_file.




(** A labor file whose header lost the Worker and the Wage columns. *)
Definition headless_labor_file : csv :=
  [("Date", ["2024-01-01"]); ("Attendance", ["1.0"]);
   ("Paid_Today", ["0.0"])].

Definition headless_store : fs := write no_files LABOR_FILE headless_labor_file.

(** * Properties *)

(** ** Labels *)

Lemma cell_eqb_refl (a : cell) : cell_eqb a a = true.
Proof.
  destruct a; simpl; auto using Qeq_bool_refl, String.eqb_refl.
Qed.

Lemma cell_eqb_sym (a b : cell) : cell_eqb a b = cell_eqb b a.
Proof.
  destruct a, b; simpl; auto using Qeq_bool_comm, String.eqb_sym.
Qed.

Lemma cell_eqb_trans (a b c : cell) :
  cell_eqb a b = true -> cell_eqb b c = true -> cell_eqb a c = true.
Proof.
  destruct a, b, c; simpl; try discriminate; auto.
  - apply Qeq_bool_trans.
  - rewrite !String.eqb_eq. congruence.
Qed.



Lemma cell_eqb_Str_l (s : string) (k : cell) :
  cell_eqb k (Str s) = true -> k = Str s.
Proof.
  destruct k; simpl; try discriminate.
  rewrite String.eqb_eq. congruence.
Qed.

(** ** Sorting *)

Section Sorting.

Context {A : Type} (leb : A -> A -> bool).




Hypothesis leb_total : forall x y, leb x y = true \/ leb y x = true.



End Sorting.


Lemma ForallOrdPairs_filter {A} (R : A -> A -> Prop) (f : A -> bool)
      (l : list A) :
  ForallOrdPairs R l -> ForallOrdPairs R (filter f l).
Proof.
  induction 1 as [|x l Hx H IH]; simpl; [constructor|].
  destruct (f x); auto. constructor; auto.
  rewrite Forall_forall in *. intros y Hy.
  apply filter_In in Hy. intuition.
Qed.


(** ** Unique labels and groups *)

Lemma unique_In (k : cell) (ks : list cell) : In k (unique ks) -> In k ks.
Proof.
  induction ks as [|k' ks IH]; simpl; auto.
  intros [->|H]; auto.
  apply filter_In in H. intuition.
Qed.

Lemma unique_covers (k : cell) (ks : list cell) :
  In k ks -> exists k', In k' (unique ks) /\ cell_eqb k' k = true.
Proof.
  induction ks as [|k0 ks IH]; simpl; [tauto|].
  intros [->|H].
  - exists k. auto using cell_eqb_refl.
  - destruct (IH H) as (k' & Hin & Heq).
    destruct (cell_eqb k' k0) eqn:H0.
    + exists k0. split; auto.
      rewrite cell_eqb_sym in H0. eauto using cell_eqb_trans.
    + exists k'. split; auto. right.
      apply filter_In. rewrite H0. auto.
Qed.

Lemma unique_distinct (ks : list cell) : distinct_labels (unique ks).
Proof.
  induction ks as [|k ks IH]; simpl; [constructor|].
  constructor.
  - rewrite Forall_forall. intros k' H.
    apply filter_In in H. destruct H as [_ H].
    rewrite cell_eqb_sym. destruct (cell_eqb k' k); auto; discriminate.
  - apply ForallOrdPairs_filter. exact IH.
Qed.







(** ** The pending dues (lines 76 to 80) *)





(** ** Columns of a frame *)

Lemma get_set_same (df : frame) (name : string) (vals : list cell) :
  get_col (set_col df name vals) name = Some vals.
Proof.
  induction df as [|[n cs] df IH]; simpl.
  - now rewrite String.eqb_refl.
  - destruct (String.eqb n name) eqn:E; simpl; rewrite E; auto.
Qed.

Lemma get_set_other (df : frame) (name other : string) (vals : list cell) :
  other <> name ->
  get_col (set_col df name vals) other = get_col df other.
Proof.
  intros Hne. induction df as [|[n cs] df IH]; simpl.
  - apply String.eqb_neq in Hne. now rewrite String.eqb_sym, Hne.
  - destruct (String.eqb n name) eqn:E; simpl.
    + apply String.eqb_eq in E. subst n.
      assert (String.eqb name other = false) as ->; auto.
      apply String.eqb_neq. congruence.
    + now rewrite IH.
Qed.

Lemma columns_set_col (df : frame) (name : string) (old vals : list cell) :
  get_col df name = Some old ->
  columns (set_col df name vals) = columns df.
Proof.
  induction df as [|[n cs] df IH]; simpl; [discriminate|].
  destruct (String.eqb n name); simpl; auto.
  intros H. now rewrite IH.
Qed.

Lemma get_col_In (df : frame) (name : string) (cs : list cell) :
  get_col df name = Some cs -> In (name, cs) df.
Proof.
  induction df as [|[n c] df IH]; simpl; [discriminate|].
  destruct (String.eqb n name) eqn:E.
  - apply String.eqb_eq in E. intros [= ->]. subst. auto.
  - auto.
Qed.


Lemma has_col_get (df : frame) (name : string) :
  has_col df name = true <-> get_col df name <> None.
Proof.
  unfold has_col, columns.
  induction df as [|[n cs] df IH]; simpl.
  - split; [discriminate|congruence].
  - rewrite (String.eqb_sym name n).
    destruct (String.eqb n name); simpl; auto.
    split; auto. discriminate.
Qed.

Lemma has_col_In (df : frame) (name : string) :
  has_col df name = true <-> In name (columns df).
Proof.
  unfold has_col. rewrite existsb_exists. split.
  - intros (x & Hx & E). apply String.eqb_eq in E. now subst.
  - intros H. exists name. split; auto. apply String.eqb_refl.
Qed.

Lemma numbers_Num (xs : list Q) : numbers (map Num xs) = Some xs.
Proof.
  induction xs as [|x xs IH]; simpl; auto. now rewrite IH.
Qed.

Lemma numbers_inv (cs : list cell) (xs : list Q) :
  numbers cs = Some xs -> cs = map Num xs.
Proof.
  revert xs. induction cs as [|[q|s|] cs IH]; simpl; intros xs; try discriminate.
  - now intros [= <-].
  - destruct (numbers cs) as [ys|]; simpl; [|discriminate].
    intros [= <-]. simpl. now rewrite (IH ys).
Qed.


Lemma series_mul_length (xs ys : list Q) :
  List.length (series_mul xs ys) = Nat.min (List.length xs) (List.length ys).
Proof.
  revert ys. induction xs as [|x xs IH]; intros [|y ys]; simpl; auto.
Qed.

(** ** The Earned column (line 49) *)



(** ** The dashboard (lines 48 to 80) *)

(** What the dashboard computes on ledgers that have the columns it reads. *)
Lemma dashboard_eq (df_labor df_exp : frame) (worker category : list cell)
      (wage att paid cost : list Q) :
  get_col df_labor "Worker" = Some worker ->
  numeric_col df_labor "Wage" = Some wage ->
  numeric_col df_labor "Attendance" = Some att ->
  numeric_col df_labor "Paid_Today" = Some paid ->
  get_col df_exp "Category" = Some category ->
  numeric_col df_exp "Cost" = Some cost ->
  let earned := series_mul wage att in
  let with_earned := set_col df_labor "Earned" (map Num earned) in
  dashboard df_labor df_exp
  = Some {| labor_with_earned := with_earned;
            total_labor_paid := sum paid;
            total_labor_earned := sum earned;
            labor_due := (sum earned - sum paid)%Q;
            total_material := sum cost;
            grand_total := (sum cost + sum paid)%Q;
            spending_data :=
              groupby_sum category cost ++ [(LABOR_PAYMENTS, sum paid)];
            pending :=
              if empty with_earned then None
              else Some (pending_dues worker earned paid) |}.
Proof.
  intros Hworker Hwage Hatt Hpaid Hcat Hcost earned with_earned.
  assert (Hpaid' : numeric_col with_earned "Paid_Today" = Some paid).
  { unfold numeric_col, with_earned.
    rewrite get_set_other by discriminate. exact Hpaid. }
  assert (Hearned : numeric_col with_earned "Earned" = Some earned).
  { unfold numeric_col, with_earned.
    rewrite get_set_same. apply numbers_Num. }
  assert (Hworker' : get_col with_earned "Worker" = Some worker).
  { unfold with_earned. rewrite get_set_other by discriminate. exact Hworker. }
  unfold dashboard, compute_earned. rewrite Hwage, Hatt.
  fold earned. fold with_earned.
  rewrite Hpaid', Hearned, Hcost.
  unfold spend_by_category. rewrite Hcat, Hcost.
  unfold pending_dues_list. rewrite Hworker', Hearned, Hpaid'.
  destruct (empty with_earned); reflexivity.
Qed.



(** ** The spending chart (lines 70 and 71) *)







(** ** The ledger store (lines 15 to 33) *)

Section StoreFacts.

Context {T : CsvText}.




Lemma columns_read_csv (file : csv) : columns (read_csv file) = map fst file.
Proof. unfold read_csv, columns. rewrite map_map. reflexivity. Qed.







Lemma columns_fix_numbers (df : frame) (name : string) :
  columns (fix_numbers df name) = columns df.
Proof.
  unfold fix_numbers. destruct (get_col df name) eqn:E; auto.
  eapply columns_set_col; eauto.
Qed.

Lemma columns_fix_all (names : list string) (df : frame) :
  columns (fold_left fix_numbers names df) = columns df.
Proof.
  revert df. induction names as [|n names IH]; intros df; cbn [fold_left];
    auto.
  now rewrite IH, columns_fix_numbers.
Qed.

(** The names of the frame [load_data] returns. *)
Lemma columns_load_data (files : fs) (filename : string)
      (cols : list string) :
  columns (fst (load_data files filename cols))
  = match files filename with
    | Some file => map fst file
    | None => cols
    end.
Proof.
  unfold load_data. destruct (files filename); cbn [fst].
  - now rewrite columns_fix_all, columns_read_csv.
  - unfold columns, new_frame. rewrite map_map. apply map_id.
Qed.


End StoreFacts.


(** The corrupt labor file, as it is loaded. *)
Example load_corrupt_labor_file :
  fst (load_data corrupt_store LABOR_FILE labor_columns)
  = [("Date", [Str "2024-01-01"; Str "2024-01-02"]);
     ("Worker", [Str "Ram"; Str "Sita"]);
     ("Role", [Str "Labor"; Str "Labor"]);
     ("Wage", [Num 600; Num 0]);
     ("Attendance", [Num 1; Num (1 # 2)]);
     ("Paid_Today", [Num 0; Num 200]);
     ("Notes", [Str "Single"; Str "Single"])].
Proof. vm_compute. reflexivity. Qed.


(** ** Appending rows (pd.concat) *)

Lemma get_col_app (a b : frame) (name : string) :
  get_col (a ++ b) name
  = match get_col a name with
    | Some cs => Some cs
    | None => get_col b name
    end.
Proof.
  induction a as [|[n cs] a IH]; simpl; auto.
  destruct (String.eqb n name); auto.
Qed.

Lemma get_col_map (f : string -> list cell -> list cell) (a : frame)
      (name : string) :
  get_col (map (fun col => (fst col, f (fst col) (snd col))) a) name
  = option_map (f name) (get_col a name).
Proof.
  induction a as [|[n cs] a IH]; simpl; auto.
  destruct (String.eqb n name) eqn:E; auto.
  apply String.eqb_eq in E. now subst.
Qed.

Lemma get_col_filter_new (a b : frame) (name : string) :
  get_col a name = None ->
  get_col (filter (fun col => negb (has_col a (fst col))) b) name
  = get_col b name.
Proof.
  intros Ha. induction b as [|[n cs] b IH]; simpl; auto.
  destruct (has_col a n) eqn:Hn; simpl.
  - destruct (String.eqb n name) eqn:E; auto.
    apply String.eqb_eq in E. subst n.
    apply has_col_get in Hn. congruence.
  - now rewrite IH.
Qed.

(** A column of the first frame, after the rows of the second. *)
Lemma concat_old_col (a b : frame) (name : string) (cs : list cell) :
  get_col a name = Some cs ->
  get_col (concat a b) name
  = Some (cs ++ match get_col b name with
                | Some bs => bs
                | None => repeat NaN (nrows b)
                end).
Proof.
  intros Ha. unfold concat. rewrite get_col_app.
  rewrite (get_col_map (fun n cs => cs ++ match get_col b n with
                                          | Some bs => bs
                                          | None => repeat NaN (nrows b)
                                          end)).
  now rewrite Ha.
Qed.

(** A column only the second frame has. *)
Lemma concat_new_col (a b : frame) (name : string) (bs : list cell) :
  get_col a name = None ->
  get_col b name = Some bs ->
  get_col (concat a b) name = Some (repeat NaN (nrows a) ++ bs).
Proof.
  intros Ha Hb. unfold concat. rewrite get_col_app.
  rewrite (get_col_map (fun n cs => cs ++ match get_col b n with
                                          | Some bs => bs
                                          | None => repeat NaN (nrows b)
                                          end)).
  rewrite Ha. simpl.
  rewrite (get_col_map (fun _ cs => repeat NaN (nrows a) ++ cs)).
  now rewrite get_col_filter_new, Hb.
Qed.

Lemma rectangular_get (n : nat) (df : frame) (name : string)
      (cs : list cell) :
  rectangular n df -> get_col df name = Some cs -> List.length cs = n.
Proof.
  intros Hr Hg. apply get_col_In in Hg.
  unfold rectangular in Hr. rewrite Forall_forall in Hr.
  exact (Hr _ Hg).
Qed.

(** The rows of the first frame stay where they are. *)
Lemma concat_cell_old (a b : frame) (name : string) (i : nat) (c : cell) :
  cell_at a i name = Some c -> cell_at (concat a b) i name = Some c.
Proof.
  unfold cell_at. destruct (get_col a name) as [cs|] eqn:Ha; [|discriminate].
  intros Hi. rewrite (concat_old_col _ _ _ _ Ha).
  rewrite nth_error_app1; auto.
  apply nth_error_Some. congruence.
Qed.

(** The rows of the second frame follow them. *)
Lemma concat_cell_new (a b : frame) (n : nat) (name : string)
      (bs : list cell) (i : nat) :
  rectangular n a -> nrows a = n ->
  get_col b name = Some bs ->
  cell_at (concat a b) (n + i) name = nth_error bs i.
Proof.
  intros Hr Hn Hb. unfold cell_at.
  destruct (get_col a name) as [cs|] eqn:Ha.
  - rewrite (concat_old_col _ _ _ _ Ha), Hb.
    pose proof (rectangular_get _ _ _ _ Hr Ha) as Hlen.
    rewrite nth_error_app2 by lia. f_equal. lia.
  - rewrite (concat_new_col _ _ _ _ Ha Hb), Hn.
    rewrite nth_error_app2 by (rewrite repeat_length; lia).
    f_equal. rewrite repeat_length. lia.
Qed.

Lemma concat_rectangular (a b : frame) (n m : nat) :
  rectangular n a -> nrows a = n ->
  rectangular m b -> nrows b = m ->
  rectangular (n + m) (concat a b).
Proof.
  intros Ha Hna Hb Hnb. unfold rectangular, concat in *.
  rewrite Forall_forall in *. intros col Hin.
  apply in_app_or in Hin. destruct Hin as [Hin|Hin];
    apply in_map_iff in Hin; destruct Hin as (c & <- & Hc); simpl;
    rewrite length_app.
  - rewrite (Ha _ Hc). f_equal.
    destruct (get_col b (fst c)) as [bs|] eqn:E.
    + apply get_col_In in E. exact (Hb _ E).
    + now rewrite repeat_length.
  - apply filter_In in Hc. destruct Hc as [Hc _].
    now rewrite repeat_length, Hna, (Hb _ Hc).
Qed.

Lemma concat_nrows (a b : frame) (n m : nat) (name : string) :
  get_col a name <> None ->
  rectangular n a -> rectangular m b -> nrows b = m ->
  nrows (concat a b) = (n + m)%nat.
Proof.
  intros Hname Ha Hb Hnb.
  destruct a as [|[c cs] a]; [simpl in Hname; congruence|].
  unfold concat. simpl. rewrite length_app.
  inversion Ha; subst. simpl. f_equal.
  destruct (get_col b c) as [bs|] eqn:E.
  - now apply (rectangular_get _ _ _ _ Hb E).
  - now rewrite repeat_length.
Qed.

Lemma nrows_rectangular (n : nat) (df : frame) (name : string) :
  get_col df name <> None -> rectangular n df -> nrows df = n.
Proof.
  destruct df as [|[c cs] df]; simpl; [congruence|].
  intros _ H. inversion H; subst. reflexivity.
Qed.

(** ** Frames of new records *)

Lemma get_col_record (g : string -> list cell) (r : record) (k : string) :
  In k (map fst r) ->
  get_col (map (fun kv => (fst kv, g (fst kv))) r) k = Some (g k).
Proof.
  induction r as [|[n c] r IH]; simpl; [tauto|].
  destruct (String.eqb n k) eqn:E.
  - apply String.eqb_eq in E. now subst.
  - intros [->|H]; auto. now rewrite String.eqb_refl in E.
Qed.

(** The column [k] of the frame of the records [mk x], [x] over [xs]. *)
Lemma from_records_col {A} (mk : A -> record) (x : A) (xs : list A)
      (k : string) :
  In k (map fst (mk x)) ->
  get_col (from_records (map mk (x :: xs))) k
  = Some (map (fun y => field (mk y) k) (x :: xs)).
Proof.
  intros Hk.
  change (from_records (map mk (x :: xs)))
    with (map (fun kv =>
                 (fst kv,
                  (fun k => map (fun r' => field r' k) (map mk (x :: xs)))
                    (fst kv))) (mk x)).
  rewrite (get_col_record _ _ _ Hk).
  now rewrite map_map.
Qed.

Lemma bulk_frame_shape (f : bulk_form) (selected : list cell) :
  let b := from_records (map (bulk_row f) selected) in
  rectangular (List.length selected) b /\ nrows b = List.length selected.
Proof.
  destruct selected as [|w ws]; simpl.
  - split; [constructor|reflexivity].
  - split; [|now rewrite !length_map].
    repeat constructor; simpl; now rewrite !length_map.
Qed.

Lemma bulk_frame_cell (f : bulk_form) (selected : list cell) (k : string)
      (i : nat) (w : cell) :
  In k labor_columns ->
  nth_error selected i = Some w ->
  exists bs,
    get_col (from_records (map (bulk_row f) selected)) k = Some bs /\
    nth_error bs i = Some (field (bulk_row f w) k).
Proof.
  intros Hk Hi. destruct selected as [|w0 ws]; [now destruct i|].
  eexists. split.
  - apply from_records_col. exact Hk.
  - rewrite nth_error_map, Hi. reflexivity.
Qed.

(** ** Bulk attendance (lines 98 to 106) *)

(** C7. Submitting the bulk form on a ledger of [n] rows saves the ledger
    with one row more per selected worker, in the order of the selection,
    below the [n] rows it had, which stay as they were.  Each new row has the
    date, the wage and the attendance of the form, the role "Regular",
    nothing paid and the note "Bulk".  With A and B selected, a wage of 500
    and half a day, the two new rows earn 250 each. *)
Theorem bulk_attendance_spec {T : CsvText} (files : fs) (df_labor : frame)
        (worker : list cell) (f : bulk_form) (n : nat) :
  get_col df_labor "Worker" = Some worker ->
  rectangular n df_labor ->
  (exists df shown,
      bulk_attendance_view files df_labor (Some f)
      = (save_data files df LABOR_FILE, Some shown) /\
      df = concat df_labor (from_records (map (bulk_row f) (bulk_selected f)))
      /\ rectangular (n + List.length (bulk_selected f)) df /\
      nrows df = (n + List.length (bulk_selected f))%nat /\
      (forall name i c,
          cell_at df_labor i name = Some c -> cell_at df i name = Some c) /\
      (forall i w,
          nth_error (bulk_selected f) i = Some w ->
          cell_at df (n + i) "Date" = Some (Str (bulk_date f)) /\
          cell_at df (n + i) "Worker" = Some w /\
          cell_at df (n + i) "Role" = Some (Str "Regular") /\
          cell_at df (n + i) "Wage" = Some (Num (bulk_wage f)) /\
          cell_at df (n + i) "Attendance"
          = Some (Num (bulk_attendance_value (bulk_att f))) /\
          cell_at df (n + i) "Paid_Today" = Some (Num 0) /\
          cell_at df (n + i) "Notes" = Some (Str "Bulk"))) /\
  (exists df df' e1 e2,
      fst (bulk_attendance_view files two_workers (Some half_day_form))
      = save_data files df LABOR_FILE /\
      nrows df = 4%nat /\
      compute_earned df = Some df' /\
      numeric_col df' "Earned" = Some [600; 600; e1; e2]%Q /\
      (e1 == 250)%Q /\ (e2 == 250)%Q /\
      numeric_col df' "Paid_Today" = Some [0; 100; 0; 0]%Q).
Proof.
  intros Hworker Hrect.
  assert (Hn : nrows df_labor = n).
  { apply (nrows_rectangular _ _ "Worker"); [congruence|assumption]. }
  destruct (bulk_frame_shape f (bulk_selected f)) as [Hb Hnb].
  split.
  - unfold bulk_attendance_view. rewrite Hworker.
    eexists. eexists. split; [reflexivity|].
    split; [reflexivity|]. split; [|split; [|split]].
    + apply concat_rectangular; auto.
    + apply (concat_nrows _ _ _ _ "Worker"); auto. congruence.
    + intros name i c. apply concat_cell_old.
    + intros i w Hi.
      assert (Hcell : forall k, In k labor_columns ->
                 cell_at (concat df_labor
                            (from_records (map (bulk_row f) (bulk_selected f))))
                         (n + i) k
                 = Some (field (bulk_row f w) k)).
      { intros k Hk.
        destruct (bulk_frame_cell f _ k i w Hk Hi) as (bs & Hbs & Hnth).
        now rewrite (concat_cell_new _ _ n k bs i Hrect Hn Hbs). }
      repeat split; apply Hcell; simpl; auto 10.
  - eexists. exists (set_col (concat two_workers
                                (from_records
                                   (map (bulk_row half_day_form)
                                        (bulk_selected half_day_form))))
                        "Earned"
                        (map Num [600 * 1; 600 * 1; 500 * (1 # 2);
                                  500 * (1 # 2)]%Q)).
    exists (500 * (1 # 2))%Q, (500 * (1 # 2))%Q.
    split; [reflexivity|].
    repeat split; reflexivity.
Qed.

Lemma bulk_attendance_spec_witness :
  exists df shown,
    bulk_attendance_view no_files two_workers (Some half_day_form)
    = (save_data no_files df LABOR_FILE, Some shown) /\
    nrows df = 4%nat /\
    cell_at df 3 "Worker" = Some (Str "B") /\
    cell_at df 3 "Paid_Today" = Some (Num 0) /\
    cell_at df 3 "Notes" = Some (Str "Bulk").
Proof.
  destruct (proj1 (bulk_attendance_spec no_files two_workers
                     [Str "A"; Str "B"] half_day_form 2 eq_refl
                     ltac:(repeat constructor)))
    as (df & shown & Hview & _ & _ & Hrows & _ & Hnew).
  exists df, shown. split; [exact Hview|]. split; [exact Hrows|].
  destruct (Hnew 1%nat (Str "B") eq_refl)
    as (_ & Hw & _ & _ & _ & Hp & Hnotes).
  auto.
Defined.

(** ** Single entry (lines 133 to 143) *)


Section RunFacts.

Context {T : CsvText}.

(** [load_data] writes no file but the one it finds missing. *)
Lemma load_data_other (files : fs) (filename other : string)
      (cols : list string) :
  other <> filename ->
  snd (load_data files filename cols) other = files other.
Proof.
  intros Hne. unfold load_data. destruct (files filename); simpl; auto.
  unfold write. apply String.eqb_neq in Hne. now rewrite Hne.
Qed.

Lemma load_data_same (files : fs) (filename : string) (cols : list string) :
  snd (load_data files filename cols) filename
  = match files filename with
    | Some file => Some file
    | None => Some (map (fun c => (c, [])) cols)
    end.
Proof.
  unfold load_data. destruct (files filename) eqn:E; simpl; auto.
  unfold write. rewrite String.eqb_refl. f_equal.
  unfold to_csv, new_frame. now rewrite map_map.
Qed.

Lemma loaded_labor (files : fs) :
  loaded files LABOR_FILE
  = match files LABOR_FILE with
    | Some file => Some file
    | None => Some (map (fun c => (c, [])) labor_columns)
    end.
Proof.
  unfold loaded.
  rewrite !load_data_other by discriminate.
  apply load_data_same.
Qed.

(** A run as the view it ends with, on the loaded frames and files. *)
Lemma run_eq (files : fs) (a : action) :
  let df_labor := fst (load_data files LABOR_FILE labor_columns) in
  let files1 := snd (load_data files LABOR_FILE labor_columns) in
  let df_exp := fst (load_data files1 EXPENSE_FILE expense_columns) in
  run files a
  = match a with
    | Dashboard =>
        (loaded files, option_map ShowDashboard (dashboard df_labor df_exp))
    | BulkAttendance submitted =>
        bulk_attendance_view (loaded files) df_labor submitted
    | SingleEntry who submitted =>
        single_entry_view (loaded files) df_labor who submitted
    | MaterialBills submitted =>
        expenses_view (loaded files) df_exp submitted
    | Reports => (loaded files, Some (reports_view df_labor df_exp))
    end.
Proof.
  unfold run, loaded.
  destruct (load_data files LABOR_FILE labor_columns) as [df_labor files1].
  cbn [fst snd].
  destruct (load_data files1 EXPENSE_FILE expense_columns)
    as [df_exp files2].
  cbn [fst snd].
  destruct (load_data files2 PROGRESS_FILE progress_columns)
    as [df_prog files3].
  reflexivity.
Qed.

End RunFacts.



(** ** The Earned column and the labor file *)



Section EarnedFacts.

Context {T : CsvText}.




End EarnedFacts.




(** The scenario of Ram through the files: from no file at all, one single
    entry and then the dashboard. *)
Example ram_through_the_files :
  match snd (run (run_all no_files
                    [SingleEntry (NewWorker "Ram")
                       (Some {| single_date := "2024-01-01";
                                single_wage := 600; single_att := FullDay;
                                single_paid := 200 |})])
                 Dashboard) with
  | Some (ShowDashboard d) =>
      total_labor_earned d = 600%Q /\ total_labor_paid d = 200%Q /\
      labor_due d = 400%Q /\ grand_total d = 200%Q /\
      spending_data d = [(LABOR_PAYMENTS, 200%Q)] /\
      pending d = Some [(Str "Ram", 400%Q)]
  | _ => False
  end.
Proof. vm_compute. repeat split; reflexivity. Qed.

(** ** Saving and loading again *)

Section RoundTrip.

Context {T : CsvText}.

Hypothesis empty_is_na : is_na_text "" = true.





End RoundTrip.







(** * More of the page *)

(** ** What load_data returns *)

Lemma get_col_None_iff (df : frame) (name : string) :
  get_col df name = None <-> ~ In name (columns df).
Proof.
  rewrite <- has_col_In. split.
  - intros H Hhas. apply has_col_get in Hhas. congruence.
  - intros H. destruct (get_col df name) eqn:E; auto.
    exfalso. apply H. apply has_col_get. congruence.
Qed.


Lemma get_col_new_frame (cols : list string) (name : string) :
  In name cols -> get_col (new_frame cols) name = Some [].
Proof.
  induction cols as [|c cols IH]; simpl; [tauto|].
  destruct (String.eqb c name) eqn:E; auto.
  intros [->|H]; auto. now rewrite String.eqb_refl in E.
Qed.

Lemma numbers_all_Num (cs : list cell) :
  Forall (fun c => exists q, c = Num q) cs -> exists xs, numbers cs = Some xs.
Proof.
  induction 1 as [|c cs [q ->] _ [xs IH]]; simpl; eauto.
  rewrite IH. simpl. eauto.
Qed.

Section LoadedFacts.

Context {T : CsvText}.

Lemma coerce_cell_Num (c : cell) : exists q, fillna0 (to_numeric c) = Num q.
Proof.
  destruct c as [q|s|]; simpl; eauto.
  destruct (to_number s); simpl; eauto.
Qed.

Lemma fix_numbers_get (df : frame) (col name : string) :
  get_col (fix_numbers df col) name
  = if String.eqb name col
    then option_map (map (fun c => fillna0 (to_numeric c))) (get_col df col)
    else get_col df name.
Proof.
  unfold fix_numbers. destruct (String.eqb name col) eqn:E.
  - apply String.eqb_eq in E. subst name.
    destruct (get_col df col) eqn:Hc; simpl.
    + apply get_set_same.
    + exact Hc.
  - apply String.eqb_neq in E.
    destruct (get_col df col); auto. now apply get_set_other.
Qed.

Lemma fix_all_numeric (names : list string) (df : frame) (name : string)
      (cs : list cell) :
  get_col (fold_left fix_numbers names df) name = Some cs ->
  (In name names \/
   exists old, get_col df name = Some old /\
               Forall (fun c => exists q, c = Num q) old) ->
  Forall (fun c => exists q, c = Num q) cs.
Proof.
  revert df. induction names as [|n names IH]; intros df; cbn [fold_left].
  - intros Hget [[]|(old & Hold & Hnum)]. congruence.
  - intros Hget Hin. apply (IH _ Hget).
    rewrite fix_numbers_get.
    destruct (String.eqb name n) eqn:E.
    + right. apply String.eqb_eq in E. subst n.
      destruct (get_col df name) as [old|] eqn:Hold; simpl.
      * eexists. split; [reflexivity|].
        rewrite Forall_map. rewrite Forall_forall. intros c _.
        apply coerce_cell_Num.
      * exfalso.
        assert (get_col (fold_left fix_numbers names (fix_numbers df name))
                        name = None); [|congruence].
        apply get_col_None_iff. rewrite columns_fix_all, columns_fix_numbers.
        now apply get_col_None_iff.
    + apply String.eqb_neq in E.
      destruct Hin as [[->|Hin]|Hold]; [congruence|now left|now right].
Qed.

End LoadedFacts.

Lemma get_col_new_frame_inv (cols : list string) (name : string)
      (cs : list cell) :
  get_col (new_frame cols) name = Some cs -> cs = [].
Proof.
  induction cols as [|c cols IH]; simpl; [discriminate|].
  destruct (String.eqb c name); auto. now intros [= <-].
Qed.

Lemma loaded_numeric_col {T : CsvText} (files : fs) (filename : string)
      (cols : list string) (name : string) (cs : list cell) :
  In name numeric_cols ->
  get_col (fst (load_data files filename cols)) name = Some cs ->
  exists xs, cs = map Num xs /\
             numeric_col (fst (load_data files filename cols)) name = Some xs.
Proof.
  intros Hname Hget.
  assert (Hnum : Forall (fun c => exists q, c = Num q) cs).
  { unfold load_data in Hget. destruct (files filename) as [file|].
    - cbn [fst] in Hget. apply (fix_all_numeric _ _ _ _ Hget). now left.
    - cbn [fst] in Hget. apply get_col_new_frame_inv in Hget. subst.
      constructor. }
  destruct (numbers_all_Num _ Hnum) as (xs & Hxs).
  exists xs. split.
  - now apply numbers_inv.
  - unfold numeric_col. now rewrite Hget.
Qed.

(** X1. Whatever the file holds, in the frame [load_data] returns every
    column of [numeric_cols] holds numbers only, no text and no missing
    value: the arithmetic of the dashboard never meets anything else. *)
Theorem load_data_numbers {T : CsvText} (files : fs) (filename : string)
        (cols : list string) (name : string) (cs : list cell) :
  In name numeric_cols ->
  get_col (fst (load_data files filename cols)) name = Some cs ->
  exists xs, cs = map Num xs /\
             numeric_col (fst (load_data files filename cols)) name = Some xs.
Proof. apply loaded_numeric_col. Qed.

Lemma load_data_numbers_witness :
  exists xs,
    [Num 600; Num 0] = map Num xs /\
    numeric_col (fst (load_data corrupt_store LABOR_FILE labor_columns)) "Wage"
    = Some xs.
Proof.
  apply (load_data_numbers corrupt_store LABOR_FILE labor_columns "Wage").
  - simpl. auto.
  - vm_compute. reflexivity.
Defined.

(** ** Columns the views read *)

Section ViewFacts.

Context {T : CsvText}.




(** The names of the two ledgers of a run. *)
Lemma columns_run_labor (files : fs) :
  columns (fst (load_data files LABOR_FILE labor_columns))
  = match files LABOR_FILE with
    | Some file => map fst file
    | None => labor_columns
    end.
Proof. apply columns_load_data. Qed.

Lemma columns_run_expense (files : fs) :
  columns (fst (load_data (snd (load_data files LABOR_FILE labor_columns))
                          EXPENSE_FILE expense_columns))
  = match files EXPENSE_FILE with
    | Some file => map fst file
    | None => expense_columns
    end.
Proof.
  rewrite columns_load_data. now rewrite load_data_other by discriminate.
Qed.

(** The dashboard stops as soon as a column it reads is not there. *)
Lemma dashboard_missing_labor (df_labor df_exp : frame) (name : string) :
  In name ["Wage"; "Attendance"; "Paid_Today"] ->
  get_col df_labor name = None ->
  dashboard df_labor df_exp = None.
Proof.
  intros Hname Hnone. unfold dashboard, compute_earned.
  destruct (numeric_col df_labor "Wage") as [wage|] eqn:Hw; auto.
  destruct (numeric_col df_labor "Attendance") as [att|] eqn:Ha; auto.
  assert (Hp : numeric_col
                 (set_col df_labor "Earned" (map Num (series_mul wage att)))
                 "Paid_Today" = None).
  { unfold numeric_col in *. rewrite get_set_other by discriminate.
    simpl in Hname.
    destruct Hname as [<-|[<-|[<-|[]]]]; rewrite Hnone in *;
      try discriminate; reflexivity. }
  now rewrite Hp.
Qed.

Lemma dashboard_missing_expense (df_labor df_exp : frame) (name : string) :
  In name ["Category"; "Cost"] ->
  get_col df_exp name = None ->
  dashboard df_labor df_exp = None.
Proof.
  intros Hname Hnone. unfold dashboard.
  destruct (compute_earned df_labor) as [df|]; auto.
  destruct (numeric_col df "Paid_Today") as [paid|]; auto.
  destruct (numeric_col df "Earned") as [earned|]; auto.
  destruct (numeric_col df_exp "Cost") as [cost|] eqn:Hc; auto.
  unfold spend_by_category. rewrite Hc.
  simpl in Hname. destruct Hname as [<-|[<-|[]]].
  - now rewrite Hnone.
  - unfold numeric_col in Hc. rewrite Hnone in Hc. discriminate.
Qed.


End ViewFacts.

(** X2. A labor file without a Worker column stops the two attendance views
    on an exception, and one without Wage, Attendance or Paid_Today stops the
    dashboard; so does an expense file without Category or Cost.  In each
    case nothing is saved: the files are as the loads left them, the labor
    file as it was. *)
Theorem missing_column_stops {T : CsvText} (files : fs) (file : csv) :
  files LABOR_FILE = Some file ->
  (~ In "Worker" (map fst file) ->
   forall submitted who submitted',
     run files (BulkAttendance submitted) = (loaded files, None) /\
     run files (SingleEntry who submitted') = (loaded files, None)) /\
  (forall name,
      In name ["Wage"; "Attendance"; "Paid_Today"] ->
      ~ In name (map fst file) ->
      run files Dashboard = (loaded files, None)) /\
  (forall efile name,
      files EXPENSE_FILE = Some efile ->
      In name ["Category"; "Cost"] ->
      ~ In name (map fst efile) ->
      run files Dashboard = (loaded files, None)) /\
  loaded files LABOR_FILE = Some file.
Proof.
  intros Hfile.
  assert (Hcols : forall name,
             ~ In name (map fst file) ->
             get_col (fst (load_data files LABOR_FILE labor_columns)) name
             = None).
  { intros name Hnot. apply get_col_None_iff.
    now rewrite columns_run_labor, Hfile. }
  split; [|split; [|split]].
  - intros Hnot submitted who submitted'. rewrite !run_eq. cbv zeta.
    unfold bulk_attendance_view, single_entry_view.
    now rewrite (Hcols _ Hnot).
  - intros name Hname Hnot. rewrite run_eq. cbv zeta.
    now rewrite (dashboard_missing_labor _ _ name Hname (Hcols _ Hnot)).
  - intros efile name Hefile Hname Hnot. rewrite run_eq. cbv zeta.
    rewrite (dashboard_missing_expense _ _ name Hname); auto.
    apply get_col_None_iff. now rewrite columns_run_expense, Hefile.
  - now rewrite loaded_labor, Hfile.
Qed.

Lemma missing_column_stops_witness :
  run headless_store (BulkAttendance (Some half_day_form))
  = (loaded headless_store, None) /\
  run headless_store Dashboard = (loaded headless_store, None) /\
  loaded headless_store LABOR_FILE = Some headless_labor_file.
Proof.
  destruct (missing_column_stops headless_store headless_labor_file eq_refl)
    as (Hworker & Hwage & _ & Hsame).
  split; [|split].
  - apply (Hworker ltac:(simpl; intuition discriminate)
                   (Some half_day_form) (NewWorker "") None).
  - apply (Hwage "Wage"); simpl; [auto|intuition discriminate].
  - exact Hsame.
Defined.

(** ** Files the page made itself *)





Section HealthyFacts.

Context {T : CsvText}.









End HealthyFacts.



(** ** What a run writes *)



(** ** Expenses (lines 146 to 163) *)



(** [df.tail(n)], column by column. *)
Lemma get_col_tail (n : nat) (df : frame) (name : string) :
  get_col (tail n df) name
  = option_map (fun cs => skipn (List.length cs - n) cs) (get_col df name).
Proof.
  unfold tail.
  exact (get_col_map (fun _ cs => skipn (List.length cs - n) cs) df name).
Qed.



(** X6. [df.tail(n)] of a table of [m] rows keeps the columns and their
    order and shows the last [n] rows in their order, all [m] of them when
    there are fewer than [n]: row [i] of the tail is row [m - min n m + i] of
    the table, and there is no row from [min n m] on. *)
Theorem tail_spec (n m : nat) (df : frame) :
  rectangular m df ->
  columns (tail n df) = columns df /\
  rectangular (Nat.min n m) (tail n df) /\
  (forall name i,
      (i < Nat.min n m)%nat ->
      cell_at (tail n df) i name = cell_at df (m - Nat.min n m + i) name) /\
  (forall name i,
      (Nat.min n m <= i)%nat -> cell_at (tail n df) i name = None).
Proof.
  intros Hrect. split; [|split; [|split]].
  - unfold tail, columns. rewrite map_map. reflexivity.
  - unfold rectangular, tail in *. rewrite Forall_map.
    eapply Forall_impl; [|exact Hrect].
    intros [c cs] Hlen. simpl in *. rewrite length_skipn. lia.
  - intros name i Hi. unfold cell_at. rewrite get_col_tail.
    destruct (get_col df name) as [cs|] eqn:E; simpl; auto.
    rewrite nth_error_skipn, (rectangular_get _ _ _ _ Hrect E).
    f_equal. lia.
  - intros name i Hi. unfold cell_at. rewrite get_col_tail.
    destruct (get_col df name) as [cs|] eqn:E; simpl; auto.
    apply nth_error_None. rewrite length_skipn.
    rewrite (rectangular_get _ _ _ _ Hrect E). lia.
Qed.

Lemma tail_spec_witness :
  cell_at (tail 2 spelled_expenses) 0 "Item" = Some (Str "Snacks") /\
  cell_at (tail 2 spelled_expenses) 1 "Item" = Some (Str "Dinner") /\
  cell_at (tail 2 spelled_expenses) 2 "Item" = None /\
  cell_at (tail 5 spelled_expenses) 0 "Item" = Some (Str "Tea").
Proof.
  assert (Hrect : rectangular 4 spelled_expenses) by (repeat constructor).
  destruct (tail_spec 2 4 spelled_expenses Hrect) as (_ & _ & Hin & Hout).
  destruct (tail_spec 5 4 spelled_expenses Hrect) as (_ & _ & Hin5 & _).
  split; [|split; [|split]].
  - rewrite (Hin "Item" 0%nat) by (simpl; lia). reflexivity.
  - rewrite (Hin "Item" 1%nat) by (simpl; lia). reflexivity.
  - apply Hout. simpl. lia.
  - rewrite (Hin5 "Item" 0%nat) by (simpl; lia). reflexivity.
Defined.

(** ** Reports (lines 166 to 177) and the shape of the labor file *)



Section ShapeFacts.

Context {T : CsvText}.






End ShapeFacts.




(** ** What a save does to the fields that were loaded *)

Section SavedFacts.

Context {T : CsvText}.



End SavedFacts.



(** ** Sums over groups *)


















(** ** The list of workers (lines 87 and 115) and the empty ledger *)

Lemma unique_nil_iff (ks : list cell) : unique ks = [] <-> ks = [].
Proof.
  split; [|now intros ->]. destruct ks; [auto|discriminate].
Qed.

(** X12. [unique()] on the Worker column gives the list of workers the two
    attendance views offer: every label of the column is in it once (labels
    compared as pandas compares them), it holds nothing else, the first
    label of the column comes first, and a missing label is offered like any
    other (it is not dropped, as [groupby] drops it). *)
Theorem workers_list_spec (worker : list cell) :
  distinct_labels (unique worker) /\
  (forall k, In k (unique worker) -> In k worker) /\
  (forall k, In k worker ->
             exists k', In k' (unique worker) /\ cell_eqb k' k = true) /\
  (forall s, In (Str s) worker -> In (Str s) (unique worker)) /\
  (In NaN worker -> In NaN (unique worker)) /\
  (forall k rest, worker = k :: rest -> exists l, unique worker = k :: l) /\
  (unique worker = [] <-> worker = []).
Proof.
  split; [apply unique_distinct|].
  split; [intros k; apply unique_In|].
  split; [intros k; apply unique_covers|].
  split; [|split; [|split]].
  - intros s Hin. destruct (unique_covers _ _ Hin) as (k' & Hk' & Heq).
    now rewrite (cell_eqb_Str_l _ _ Heq) in Hk'.
  - intros Hin. destruct (unique_covers _ _ Hin) as (k' & Hk' & Heq).
    destruct k'; simpl in Heq; try discriminate. exact Hk'.
  - intros k rest ->. simpl. eauto.
  - apply unique_nil_iff.
Qed.

Lemma final_name_existing (existing : list cell) (i : nat) :
  existing <> [] -> In (final_name existing (ExistingWorker i)) existing.
Proof.
  destruct existing as [|first rest]; [congruence|]. intros _.
  unfold final_name.
  destruct (Nat.lt_ge_cases i (List.length (first :: rest))) as [Hi|Hi].
  - now apply nth_In.
  - rewrite nth_overflow by assumption. simpl. auto.
Qed.

(** X13. On a ledger without rows the bulk view warns that no workers were
    found, and it warns on no other ledger; the single form in the mode
    Existing Worker has the empty name there and is refused with "Name is
    required!", nothing being saved.  On a ledger with rows that mode always
    takes a label of the Worker column. *)
Theorem empty_ledger_views {T : CsvText} (files : fs) (df_labor : frame)
        (worker : list cell) :
  get_col df_labor "Worker" = Some worker ->
  (bulk_attendance_view files df_labor None
   = (files, Some (ShowMessages [NoWorkersFound])) <-> worker = []) /\
  (worker = [] ->
   forall i f,
     single_entry_view files df_labor (ExistingWorker i) (Some f)
     = (files, Some (ShowMessages [NameRequired]))) /\
  (worker <> [] ->
   forall i, In (final_name (unique worker) (ExistingWorker i)) worker).
Proof.
  intros Hworker. split; [|split].
  - unfold bulk_attendance_view. rewrite Hworker.
    destruct worker as [|k rest]; simpl.
    + tauto.
    + split; [intros [=]|discriminate].
  - intros -> i f. unfold single_entry_view. rewrite Hworker. reflexivity.
  - intros Hne i. apply unique_In. apply final_name_existing.
    now rewrite unique_nil_iff.
Qed.

Lemma empty_ledger_views_witness :
  bulk_attendance_view no_files (new_frame labor_columns) None
  = (no_files, Some (ShowMessages [NoWorkersFound])) /\
  In (final_name (unique [Str "A"; Str "B"]) (ExistingWorker 7))
     [Str "A"; Str "B"].
Proof.
  split.
  - apply (empty_ledger_views (T := pandas_text) no_files
             (new_frame labor_columns) [] eq_refl).
    reflexivity.
  - apply (empty_ledger_views (T := pandas_text) no_files two_workers
             [Str "A"; Str "B"] eq_refl).
    discriminate.
Defined.

(** ** More of the dashboard *)

Lemma rectangular_set_col_any (n : nat) (df : frame) (name : string)
      (vals : list cell) :
  rectangular n df -> List.length vals = n ->
  rectangular n (set_col df name vals).
Proof.
  unfold rectangular. intros Hr Hlen.
  induction df as [|[c cs] df IH]; simpl.
  - repeat constructor. exact Hlen.
  - inversion Hr; subst.
    destruct (String.eqb c name); constructor; auto.
Qed.

Lemma numeric_col_length (n : nat) (df : frame) (name : string)
      (xs : list Q) :
  rectangular n df -> numeric_col df name = Some xs -> List.length xs = n.
Proof.
  unfold numeric_col. intros Hr.
  destruct (get_col df name) as [cs|] eqn:E; [|discriminate].
  intros Hnum. apply numbers_inv in Hnum.
  rewrite <- (rectangular_get _ _ _ _ Hr E), Hnum. now rewrite length_map.
Qed.

(** X14. The table of pending dues is guarded by the emptiness of the
    ledger, not of the list: on a ledger without rows the dashboard shows no
    table at all, and on a ledger with rows it shows the table of the
    workers above the threshold even when nobody is above it. *)
Theorem pending_table_guard (df_labor df_exp : frame) (n : nat)
        (worker category : list cell) (wage att paid cost : list Q) :
  rectangular n df_labor ->
  get_col df_labor "Worker" = Some worker ->
  numeric_col df_labor "Wage" = Some wage ->
  numeric_col df_labor "Attendance" = Some att ->
  numeric_col df_labor "Paid_Today" = Some paid ->
  get_col df_exp "Category" = Some category ->
  numeric_col df_exp "Cost" = Some cost ->
  exists d,
    dashboard df_labor df_exp = Some d /\
    (n = 0%nat -> pending d = None) /\
    (n <> 0%nat ->
     pending d = Some (pending_dues worker (series_mul wage att) paid)).
Proof.
  intros Hrect Hworker Hwage Hatt Hpaid Hcat Hcost.
  eexists. split; [eapply dashboard_eq; eassumption|]. cbn [pending].
  set (with_earned := set_col df_labor "Earned"
                              (map Num (series_mul wage att))).
  assert (Hn : nrows with_earned = n).
  { apply (nrows_rectangular _ _ "Worker").
    - unfold with_earned. rewrite get_set_other by discriminate. congruence.
    - apply rectangular_set_col_any; auto.
      rewrite length_map, series_mul_length.
      rewrite (numeric_col_length _ _ _ _ Hrect Hwage).
      rewrite (numeric_col_length _ _ _ _ Hrect Hatt). lia. }
  unfold empty. rewrite Hn. split.
  - intros ->. reflexivity.
  - intros Hne. destruct n; [congruence|reflexivity].
Qed.

(** Nobody is above the threshold in the ledger of the overpaid worker. *)
Lemma pending_table_guard_witness :
  exists d,
    dashboard overpaid_ledger (new_frame expense_columns) = Some d /\
    pending d = Some [].
Proof.
  destruct (pending_table_guard overpaid_ledger (new_frame expense_columns) 1
              [Str "Ram"] [] [600%Q] [0.5%Q] [500%Q] []
              ltac:(repeat constructor)
              eq_refl eq_refl eq_refl eq_refl eq_refl eq_refl)
    as (d & Hd & _ & Hshown).
  exists d. split; [exact Hd|].
  rewrite Hshown by discriminate. reflexivity.
Defined.

Lemma set_col_twice (df : frame) (name : string) (v v' : list cell) :
  set_col (set_col df name v) name v' = set_col df name v'.
Proof.
  induction df as [|[c cs] df IH]; simpl.
  - now rewrite String.eqb_refl.
  - destruct (String.eqb c name) eqn:E; simpl; rewrite E; auto.
    now rewrite IH.
Qed.

(** X15. An Earned column that the ledger already has, from the file, has no
    part in the dashboard: line 49 overwrites it, so the page computed from
    the ledger is the same whatever that column holds, and the same as
    without it. *)
Theorem dashboard_ignores_stored_earned (df_labor df_exp : frame)
        (stored : list cell) :
  dashboard (set_col df_labor "Earned" stored) df_exp
  = dashboard df_labor df_exp.
Proof.
  assert (H : compute_earned (set_col df_labor "Earned" stored)
              = compute_earned df_labor).
  { unfold compute_earned, numeric_col.
    rewrite !get_set_other by discriminate.
    destruct (get_col df_labor "Wage") as [w|]; auto.
    destruct (numbers w) as [wage|]; auto.
    destruct (get_col df_labor "Attendance") as [a|]; auto.
    destruct (numbers a) as [att|]; auto.
    now rewrite set_col_twice. }
  unfold dashboard. now rewrite H.
Qed.

(** ** Loading again *)

Lemma set_col_same (df : frame) (name : string) (v : list cell) :
  get_col df name = Some v -> set_col df name v = df.
Proof.
  induction df as [|[c cs] df IH]; simpl; [discriminate|].
  destruct (String.eqb c name).
  - now intros [= ->].
  - intros H. now rewrite IH.
Qed.

Section LoadAgain.

Context {T : CsvText}.

Lemma fix_numbers_new_frame (cols : list string) (col : string) :
  fix_numbers (new_frame cols) col = new_frame cols.
Proof.
  unfold fix_numbers.
  destruct (get_col (new_frame cols) col) as [cs|] eqn:E; auto.
  pose proof (get_col_new_frame_inv _ _ _ E). subst cs.
  now apply set_col_same.
Qed.

Lemma fix_all_new_frame (names cols : list string) :
  fold_left fix_numbers names (new_frame cols) = new_frame cols.
Proof.
  induction names as [|c names IH]; cbn [fold_left]; auto.
  now rewrite fix_numbers_new_frame.
Qed.

Lemma read_new_frame (cols : list string) :
  read_csv (to_csv (new_frame cols)) = new_frame cols.
Proof.
  unfold read_csv, to_csv, new_frame. rewrite !map_map. reflexivity.
Qed.

End LoadAgain.

(** X16. Loading twice in a row is loading once: the second [load_data]
    returns the same frame and leaves the same files, whether the first one
    found the file or had to create it. *)
Theorem load_data_twice {T : CsvText} (files : fs) (filename : string)
        (cols : list string) :
  load_data (snd (load_data files filename cols)) filename cols
  = load_data files filename cols.
Proof.
  unfold load_data at 2 3.
  destruct (files filename) as [file|] eqn:E; cbn [snd].
  - unfold load_data. now rewrite E.
  - unfold load_data, write. rewrite String.eqb_refl.
    now rewrite read_new_frame, fix_all_new_frame.
Qed.

(** ** What a saved form does to the totals *)














